(** * run_queries.py: [execute_query] as a state-and-exception program

    Both scripts of the repository
    (article-006-sql-fundamentals and article-007-advanced-sql) define the
    same function [execute_query(query, description="Query")]; they differ
    only in the SQL text of their [__main__] block.  The function is
    embedded once, over an explicit environment (the database server) and an
    explicit program state (the database, the connection handles and the
    lines written by [print]). *)

From Stdlib Require Import List String Ascii ZArith Arith Bool Lia.
From Stdlib Require Import DecimalString.
Import ListNotations.
Open Scope string_scope.
Open Scope list_scope.

(** ** Data *)

(** A cell of a result set. *)
Inductive scalar : Type :=
| Null
| Int (z : Z)
| Text (s : string).

(** A pandas DataFrame as [pd.read_sql] builds it: the column names of the
    projection and the rows, in order. *)
Record DataFrame : Type := mkDataFrame {
  columns : list string;
  rows : list (list scalar)
}.

(** [len(df)] *)
Definition len (df : DataFrame) : nat := List.length (rows df).

(** [df.head(n)] for a non-negative [n]: the first [n] rows, same columns. *)
Definition head (n : nat) (df : DataFrame) : DataFrame :=
  {| columns := columns df; rows := firstn n (rows df) |}.

(** The keyword arguments of [psycopg2.connect]. *)
Record ConnConfig : Type := mkConnConfig {
  host : string;
  port : Z;
  database : string;
  user : string;
  password : string
}.

(** Exceptions raised by the two library calls of the function,
    [psycopg2.connect] and [pd.read_sql].  All these classes derive from
    Python's [Exception]; [exc_text] is what [str(e)] gives. *)
Inductive exc_class : Type :=
| OperationalError
| ProgrammingError
| InterfaceError
| DatabaseError.

Record Exc : Type := mkExc {
  exc_kind : exc_class;
  exc_text : string
}.

(** One [print] call of the function, by call site, with the values that
    are formatted into it. *)
Inductive Line : Type :=
| HeaderRuleTop
| HeaderCaption (description : string)
| HeaderRuleBottom
| Table (shown : DataFrame)
| ReturnedRows (n : nat)
| NoResults
| ErrorLine (text : string).

(** The stored tables, by name. *)
Definition Database : Type := list (string * DataFrame).

(** The server behind [psycopg2.connect] and [pd.read_sql]: whether it
    accepts a connection for a configuration ([None]) or refuses it with an
    exception, and what a statement yields on a database, together with the
    database it leaves. *)
Record Env : Type := mkEnv {
  env_connect : ConnConfig -> option Exc;
  env_engine : Database -> string -> (Exc + DataFrame) * Database
}.

(** The program state: the database, a record of every [connect] call, the
    numbers of handles opened and closed, the handles still open, and the
    lines printed so far. *)
Record State : Type := mkState {
  db : Database;
  connect_calls : list ConnConfig;
  open_count : nat;
  close_count : nat;
  live : list nat;
  stdout : list Line
}.

Definition init_state (d : Database) : State :=
  {| db := d; connect_calls := []; open_count := 0; close_count := 0;
     live := []; stdout := [] |}.

(** ** The monad of the function: state and exceptions *)

Definition M (A : Type) : Type := State -> (Exc + A) * State.

Definition ret {A : Type} (a : A) : M A := fun s => (inr a, s).

Definition bind {A B : Type} (m : M A) (k : A -> M B) : M B :=
  fun s =>
    match m s with
    | (inl e, s') => (inl e, s')
    | (inr a, s') => k a s'
    end.

Definition raise {A : Type} (e : Exc) : M A := fun s => (inl e, s).

(** [try: body except Exception as e: handler]; the state reached when the
    exception was raised is the one the handler starts from. *)
Definition try_except {A : Type} (body : M A) (handler : Exc -> M A) : M A :=
  fun s =>
    match body s with
    | (inl e, s') => handler e s'
    | (inr a, s') => (inr a, s')
    end.

Declare Scope prog_scope.
Delimit Scope prog_scope with prog.
Notation "x <- m ;; k" := (bind m (fun x => k))
  (at level 61, m at next level, right associativity) : prog_scope.
Notation "m ;; k" := (bind m (fun _ => k))
  (at level 61, right associativity) : prog_scope.
Open Scope prog_scope.

(** [print(...)] *)
Definition print (l : Line) : M unit :=
  fun s =>
    (inr tt,
     {| db := db s; connect_calls := connect_calls s;
        open_count := open_count s; close_count := close_count s;
        live := live s; stdout := stdout s ++ [l] |}).

Definition is_live (h : nat) (s : State) : bool := existsb (Nat.eqb h) (live s).

Section Program.

Variable env : Env.

(** [psycopg2.connect] with the keyword arguments [cfg]: the call is
    recorded; a refused connection raises, an accepted one hands out a fresh
    handle. *)
Definition connect (cfg : ConnConfig) : M nat :=
  fun s =>
    let calls := connect_calls s ++ [cfg] in
    match env_connect env cfg with
    | Some e =>
        (inl e,
         {| db := db s; connect_calls := calls;
            open_count := open_count s; close_count := close_count s;
            live := live s; stdout := stdout s |})
    | None =>
        let h := open_count s in
        (inr h,
         {| db := db s; connect_calls := calls;
            open_count := S (open_count s); close_count := close_count s;
            live := h :: live s; stdout := stdout s |})
    end.

(** [pd.read_sql(query, conn)]: on a closed handle the driver raises; on an
    open one the server runs the statement. *)
Definition read_sql (query : string) (conn : nat) : M DataFrame :=
  fun s =>
    if is_live conn s then
      let (r, d') := env_engine env (db s) query in
      (r,
       {| db := d'; connect_calls := connect_calls s;
          open_count := open_count s; close_count := close_count s;
          live := live s; stdout := stdout s |})
    else raise (mkExc InterfaceError "connection already closed") s.

(** [conn.close()]: closing an open handle releases it; closing a closed
    one does nothing. *)
Definition close (conn : nat) : M unit :=
  fun s =>
    if is_live conn s then
      (inr tt,
       {| db := db s; connect_calls := connect_calls s;
          open_count := open_count s; close_count := S (close_count s);
          live := filter (fun h => negb (Nat.eqb conn h)) (live s);
          stdout := stdout s |})
    else (inr tt, s).

(** The configuration written in the body of [execute_query]. *)
Definition hard_coded_config : ConnConfig :=
  {| host := "localhost"; port := 5433; database := "ecommerce_db";
     user := "admin"; password := "root" |}.

(** [def execute_query(query, description="Query")]; the result is
    [Some df] for [return df] and [None] for [return None]. *)
Definition execute_query (query description : string) : M (option DataFrame) :=
  try_except
    (conn <- connect hard_coded_config ;;
     print HeaderRuleTop ;;
     print (HeaderCaption description) ;;
     print HeaderRuleBottom ;;
     df <- read_sql query conn ;;
     (if (0 <? len df)%nat
      then print (Table (head 20 df)) ;; print (ReturnedRows (len df))
      else print NoResults) ;;
     close conn ;;
     ret (Some df))
    (fun e => print (ErrorLine (exc_text e)) ;; ret None).

(** The call with [description] left to its default. *)
Definition execute_query_default (query : string) : M (option DataFrame) :=
  execute_query query "Query".

End Program.

Arguments hard_coded_config : simpl never.

(** ** The text of the printed lines *)

Section Rendering.

(** colorama's [Fore.CYAN], [Fore.GREEN], [Fore.YELLOW], [Fore.RED] and
    [Style.RESET_ALL], and [tabulate(_, headers='keys', tablefmt='psql',
    showindex=False)], are the libraries' own. *)
Variables CYAN GREEN YELLOW RED RESET_ALL : string.
Variable tabulate : DataFrame -> string.

(** ['=' * n] *)
Fixpoint rule (n : nat) : string :=
  match n with
  | O => EmptyString
  | S k => String "=" (rule k)
  end.

Definition newline : string := String (ascii_of_nat 10) EmptyString.

(** [str(n)] on a non-negative integer. *)
Definition str_nat (n : nat) : string := NilEmpty.string_of_uint (Nat.to_uint n).

(** The argument of each [print] call, as the f-strings build it. *)
Definition line_text (l : Line) : string :=
  match l with
  | HeaderRuleTop => CYAN ++ rule 70
  | HeaderCaption description => "📊 " ++ description
  | HeaderRuleBottom => rule 70 ++ RESET_ALL ++ newline
  | Table shown => tabulate shown
  | ReturnedRows n =>
      newline ++ GREEN ++ "✅ Returned " ++ str_nat n ++ " rows"
        ++ RESET_ALL ++ newline
  | NoResults => YELLOW ++ "⚠️  No results returned" ++ RESET_ALL ++ newline
  | ErrorLine text => RED ++ "❌ Error: " ++ text ++ RESET_ALL ++ newline
  end%string.

End Rendering.

(** ** What a caller and a reader of the terminal observe *)

(** The lines printed between two states of one run. *)
Definition emitted (s s' : State) : list Line :=
  skipn (List.length (stdout s)) (stdout s').

(** The [connect] calls made between two states of one run. *)
Definition targets (s s' : State) : list ConnConfig :=
  skipn (List.length (connect_calls s)) (connect_calls s').

(** Handles opened, and handles closed, between two states of one run. *)
Definition opened (s s' : State) : nat := open_count s' - open_count s.
Definition closed (s s' : State) : nat := close_count s' - close_count s.

(** [df is not None] on the returned value. *)
Definition succeeded (r : option DataFrame) : bool :=
  match r with
  | Some _ => true
  | None => false
  end.

Definition is_header (l : Line) : bool :=
  match l with
  | HeaderRuleTop | HeaderCaption _ | HeaderRuleBottom => true
  | _ => false
  end.

Definition is_table (l : Line) : bool :=
  match l with Table _ => true | _ => false end.

Definition is_row_count (l : Line) : bool :=
  match l with ReturnedRows _ => true | _ => false end.

Definition is_notice (l : Line) : bool :=
  match l with NoResults => true | _ => false end.

Definition is_error (l : Line) : bool :=
  match l with ErrorLine _ => true | _ => false end.

(** The three displays: a table with a row count, one error line, the
    no-results notice. *)
Definition shows_table_and_count (out : list Line) : bool :=
  existsb is_table out && existsb is_row_count out.

Definition shows_single_error (out : list Line) : bool :=
  Nat.eqb (List.length (filter is_error out)) 1.

Definition shows_notice (out : list Line) : bool :=
  existsb is_notice out.

Definition displays_shown (out : list Line) : nat :=
  Nat.b2n (shows_table_and_count out) + Nat.b2n (shows_single_error out)
  + Nat.b2n (shows_notice out).

(** The three lines of the section header. *)
Definition header (description : string) : list Line :=
  [HeaderRuleTop; HeaderCaption description; HeaderRuleBottom].

(** ** Concrete servers, for evaluating the function *)

Fixpoint lookup_table (d : Database) (name : string) : option DataFrame :=
  match d with
  | [] => None
  | (n, df) :: rest => if String.eqb n name then Some df else lookup_table rest name
  end.

Definition refused : Exc := mkExc OperationalError "connection refused".

Definition no_relation : Exc := mkExc ProgrammingError "relation does not exist".

(** A read-only engine that answers a statement naming a stored table with
    that table and rejects every other statement. *)
Definition table_engine (d : Database) (q : string) : (Exc + DataFrame) * Database :=
  match lookup_table d q with
  | Some df => (inr df, d)
  | None => (inl no_relation, d)
  end.

Definition server_up : Env :=
  {| env_connect := fun _ => None; env_engine := table_engine |}.

Definition server_down : Env :=
  {| env_connect := fun _ => Some refused;
     env_engine := table_engine |}.

Definition numbered_rows (n : nat) : list (list scalar) :=
  map (fun i => [Int (Z.of_nat i); Text "Delivered"]) (seq 1 n).

Definition orders_df : DataFrame :=
  {| columns := ["order_id"; "order_status"]; rows := numbered_rows 25 |}.

Definition customers_df : DataFrame :=
  {| columns := ["customer_id"; "order_status"]; rows := numbered_rows 3 |}.

Definition returns_df : DataFrame :=
  {| columns := ["return_id"; "order_status"]; rows := [] |}.

Definition demo_db : Database :=
  [("orders", orders_df); ("customers", customers_df); ("returns", returns_df)].

(** ** The scripts' entry points *)

(** The SQL text of the [__main__] block of article-006-sql-fundamentals. *)
Definition query_006 : string :=
  "
    WITH customer_spend AS (
        SELECT customer_id, SUM(total_amount) AS total_spent
        FROM orders
        WHERE order_status='Delivered'
        GROUP BY customer_id
        ),
    ranked AS (
        SELECT customer_id, total_spent, 
            RANK() OVER (ORDER BY total_spent DESC) AS rank
        FROM customer_spend
    )
    SELECT c.first_name, c.last_name, r.total_spent, r.rank
    FROM ranked r
    JOIN customers c ON r.customer_id = c.customer_id
    WHERE r.rank <= 10;
    ".

(** [execute_query(query, ...)] as the [__main__] block of
    article-006-sql-fundamentals calls it; the value returned is dropped. *)
Definition main_006 (env : Env) : M unit :=
  execute_query env query_006 "RANKING HIGH SPENDING CUSTOMERS" ;; ret tt.

(** The SQL text of the [__main__] block of article-007-advanced-sql. *)
Definition query_007 : string :=
  "
    WITH monthly_revenue AS (
        SELECT 
            DATE_TRUNC('month', order_date) AS month,
            SUM(total_amount) AS revenue
        FROM orders
        WHERE order_status = 'Delivered'
        GROUP BY DATE_TRUNC('month', order_date)
    )
    SELECT 
        month,
        revenue,
        LAG(revenue) OVER (ORDER BY month) AS prev_month_revenue,
        ROUND(
            ((revenue - LAG(revenue) OVER (ORDER BY month)) / 
             LAG(revenue) OVER (ORDER BY month) * 100), 2
        ) AS growth_percentage
    FROM monthly_revenue
    ORDER BY month;
    ".

(** [execute_query(query, ...)] as the [__main__] block of
    article-007-advanced-sql calls it; the value returned is dropped. *)
Definition main_007 (env : Env) : M unit :=
  execute_query env query_007 "Month-over-Month Revenue Growth" ;; ret tt.

(** A connection target other than the one written in the function. *)
Definition other_target : ConnConfig :=
  {| host := "db.example.org"; port := 5432; database := "warehouse";
     user := "analyst"; password := "secret" |}.

(** ** Handle bookkeeping *)

(** Handles are numbered by [open_count] in the order they are handed out:
    every open handle is below the next number. *)
Definition fresh_handles (s : State) : bool :=
  forallb (fun h => (h <? open_count s)%nat) (live s).


(** A state in which the caller holds two connections of its own and has
    printed a line already. *)
Definition busy_state : State :=
  {| db := demo_db; connect_calls := [other_target; other_target];
     open_count := 2; close_count := 0; live := [1; 0];
     stdout := [NoResults] |}.

(** * Properties *)

(** ** Observations on states that extend one another *)

Lemma skipn_length_app {A : Type} (l out : list A) :
  skipn (List.length l) (l ++ out) = out.
Proof.
  induction l as [|x l IH]; cbn; [reflexivity | exact IH].
Qed.

Lemma emitted_app (s s' : State) (out : list Line) :
  stdout s' = stdout s ++ out -> emitted s s' = out.
Proof.
  intros H. unfold emitted. rewrite H. apply skipn_length_app.
Qed.

Lemma targets_app (s s' : State) (cs : list ConnConfig) :
  connect_calls s' = connect_calls s ++ cs -> targets s s' = cs.
Proof.
  intros H. unfold targets. rewrite H. apply skipn_length_app.
Qed.

Lemma head_len (n : nat) (df : DataFrame) :
  n <= len df -> len (head n df) = n.
Proof.
  unfold len, head. cbn. intros H. apply firstn_length_le. exact H.
Qed.

(** ** The four paths through [execute_query] *)

Ltac unfold_program :=
  unfold execute_query, try_except, bind, connect, read_sql, close, print,
    ret, raise, is_live, header.

Ltac tidy_state :=
  cbn; rewrite ?Nat.eqb_refl; cbn; rewrite <- ?app_assoc; cbn.

Section Paths.

Variable env : Env.
Variables (q d : string) (s : State).

(** [psycopg2.connect] raises: only the handler runs. *)
Lemma run_connect_refused (e : Exc) :
  env_connect env hard_coded_config = Some e ->
  execute_query env q d s =
    (inr None,
     {| db := db s;
        connect_calls := connect_calls s ++ [hard_coded_config];
        open_count := open_count s; close_count := close_count s;
        live := live s;
        stdout := stdout s ++ [ErrorLine (exc_text e)] |}).
Proof.
  intros Hc. unfold_program. rewrite Hc. tidy_state. reflexivity.
Qed.

(** [pd.read_sql] raises: the header is out, the handler runs, and
    [conn.close()] is skipped. *)
Lemma run_query_raises (e : Exc) (d' : Database) :
  env_connect env hard_coded_config = None ->
  env_engine env (db s) q = (inl e, d') ->
  execute_query env q d s =
    (inr None,
     {| db := d';
        connect_calls := connect_calls s ++ [hard_coded_config];
        open_count := S (open_count s); close_count := close_count s;
        live := open_count s :: live s;
        stdout := stdout s ++ header d ++ [ErrorLine (exc_text e)] |}).
Proof.
  intros Hc He. unfold_program. rewrite Hc. tidy_state.
  rewrite He. tidy_state. reflexivity.
Qed.

(** The statement yields at least one row. *)
Lemma run_query_rows (df : DataFrame) (d' : Database) :
  env_connect env hard_coded_config = None ->
  env_engine env (db s) q = (inr df, d') ->
  0 < len df ->
  execute_query env q d s =
    (inr (Some df),
     {| db := d';
        connect_calls := connect_calls s ++ [hard_coded_config];
        open_count := S (open_count s); close_count := S (close_count s);
        live := filter (fun h => negb (Nat.eqb (open_count s) h)) (live s);
        stdout := stdout s ++ header d
                    ++ [Table (head 20 df); ReturnedRows (len df)] |}).
Proof.
  intros Hc He Hl. unfold_program. rewrite Hc. tidy_state. rewrite He.
  destruct (len df) eqn:E; [lia|]. tidy_state. reflexivity.
Qed.

(** The statement yields no row. *)
Lemma run_query_empty (df : DataFrame) (d' : Database) :
  env_connect env hard_coded_config = None ->
  env_engine env (db s) q = (inr df, d') ->
  len df = 0 ->
  execute_query env q d s =
    (inr (Some df),
     {| db := d';
        connect_calls := connect_calls s ++ [hard_coded_config];
        open_count := S (open_count s); close_count := S (close_count s);
        live := filter (fun h => negb (Nat.eqb (open_count s) h)) (live s);
        stdout := stdout s ++ header d ++ [NoResults] |}).
Proof.
  intros Hc He Hl. unfold_program. rewrite Hc. tidy_state.
  rewrite He, Hl. tidy_state. reflexivity.
Qed.

End Paths.

(** Case analysis on the path a run takes, rewriting the run with the
    equation of that path. *)
Ltac by_path env q d s :=
  let Hc := fresh "Hc" in
  let He := fresh "He" in
  let Hl := fresh "Hl" in
  let e := fresh "e" in
  let df := fresh "df" in
  let d' := fresh "d'" in
  destruct (env_connect env hard_coded_config) as [e|] eqn:Hc;
  [ rewrite ?(run_connect_refused env q d s e Hc)
  | destruct (env_engine env (db s) q) as [[e|df] d'] eqn:He;
    [ rewrite ?(run_query_raises env q d s e d' Hc He)
    | destruct (Nat.eq_dec (len df) 0) as [Hl|Hl];
      [ rewrite ?(run_query_empty env q d s df d' Hc He Hl)
      | apply Nat.neq_0_lt_0 in Hl;
        rewrite ?(run_query_rows env q d s df d' Hc He Hl) ] ] ].

Section Balance.

Variable env : Env.
Variables (q d : string) (s : State).

(** A refused connection opens no handle, so none is left to close. *)
Lemma refused_opens_nothing (e : Exc) :
  env_connect env hard_coded_config = Some e ->
  opened s (snd (execute_query env q d s)) = 0
  /\ closed s (snd (execute_query env q d s)) = 0.
Proof.
  intros Hc. rewrite (run_connect_refused env q d s e Hc).
  unfold opened, closed. cbn [snd open_count close_count]. lia.
Qed.

(** When the statement succeeds the handle opened is closed again. *)
Lemma success_closes_connection (df : DataFrame) (d' : Database) :
  env_connect env hard_coded_config = None ->
  env_engine env (db s) q = (inr df, d') ->
  opened s (snd (execute_query env q d s)) = 1
  /\ closed s (snd (execute_query env q d s)) = 1
  /\ is_live (open_count s) (snd (execute_query env q d s)) = false.
Proof.
  intros Hc He.
  assert (Hdead : existsb (Nat.eqb (open_count s))
            (filter (fun h => negb (Nat.eqb (open_count s) h)) (live s)) = false).
  { induction (live s) as [|h l IH]; cbn; [reflexivity|].
    destruct (Nat.eqb (open_count s) h) eqn:E; cbn; [exact IH|].
    rewrite E. exact IH. }
  destruct (Nat.eq_dec (len df) 0) as [Hl|Hl].
  - rewrite (run_query_empty env q d s df d' Hc He Hl).
    unfold opened, closed, is_live. cbn [snd open_count close_count live].
    rewrite Hdead. repeat split; lia.
  - apply Nat.neq_0_lt_0 in Hl.
    rewrite (run_query_rows env q d s df d' Hc He Hl).
    unfold opened, closed, is_live. cbn [snd open_count close_count live].
    rewrite Hdead. repeat split; lia.
Qed.

End Balance.

(** ** Failures *)

Section Failures.

Variable env : Env.
Variables (q d : string) (s : State).

(** C1, at the path the function misses: when the connection is accepted
    and [pd.read_sql] raises, the run opens one handle and closes none, and
    that handle is still open when [execute_query] returns. *)
Theorem query_failure_leaves_connection_open (e : Exc) (d' : Database) :
  env_connect env hard_coded_config = None ->
  env_engine env (db s) q = (inl e, d') ->
  opened s (snd (execute_query env q d s)) = 1
  /\ closed s (snd (execute_query env q d s)) = 0
  /\ is_live (open_count s) (snd (execute_query env q d s)) = true.
Proof.
  intros Hc He. rewrite (run_query_raises env q d s e d' Hc He).
  unfold opened, closed, is_live. cbn [snd open_count close_count live existsb].
  rewrite Nat.eqb_refl. repeat split; lia.
Qed.

(** C2: [execute_query] always returns a value and never an exception; when
    the connection is refused or the statement raises, the value is [None]
    and the one error line printed carries the text of the exception; when
    neither fails, the value is the data frame. *)
Theorem execute_query_never_raises :
  exists r : option DataFrame,
    fst (execute_query env q d s) = inr r
    /\ match env_connect env hard_coded_config,
             fst (env_engine env (db s) q) with
       | Some e, _ | None, inl e =>
           r = None /\ succeeded r = false
           /\ filter is_error (emitted s (snd (execute_query env q d s)))
              = [ErrorLine (exc_text e)]
       | None, inr df => r = Some df /\ succeeded r = true
       end.
Proof.
  by_path env q d s; cbn [fst snd].
  - exists None. repeat split.
    erewrite emitted_app by (cbn [stdout]; reflexivity). reflexivity.
  - exists None. repeat split.
    erewrite emitted_app by (cbn [stdout]; reflexivity). reflexivity.
  - exists (Some df). repeat split.
  - exists (Some df). repeat split.
Qed.

(** C3, as the code has it: a refused connection and a rejected statement
    end the same way for the caller; the value returned is [None] in both
    cases and the error line is built from the text of the exception
    alone, whatever its class and whichever call raised it. *)
Theorem either_failure_returns_None (e : Exc) :
  env_connect env hard_coded_config = Some e
  \/ (env_connect env hard_coded_config = None
      /\ fst (env_engine env (db s) q) = inl e) ->
  fst (execute_query env q d s) = inr None
  /\ filter is_error (emitted s (snd (execute_query env q d s)))
     = [ErrorLine (exc_text e)].
Proof.
  intros [Hc | [Hc He]].
  - rewrite (run_connect_refused env q d s e Hc). cbn [fst snd]. split.
    + reflexivity.
    + erewrite emitted_app by (cbn [stdout]; reflexivity). reflexivity.
  - destruct (env_engine env (db s) q) as [r d'] eqn:Hq.
    cbn [fst] in He. subst r.
    rewrite (run_query_raises env q d s e d' Hc Hq). cbn [fst snd]. split.
    + reflexivity.
    + erewrite emitted_app by (cbn [stdout]; reflexivity). reflexivity.
Qed.

(** C10: when opening the connection fails, the error line is the only
    line the run prints; no header line precedes it. *)
Theorem no_header_without_connection (e : Exc) :
  env_connect env hard_coded_config = Some e ->
  emitted s (snd (execute_query env q d s)) = [ErrorLine (exc_text e)]
  /\ existsb is_header (emitted s (snd (execute_query env q d s))) = false.
Proof.
  intros Hc. rewrite (run_connect_refused env q d s e Hc). cbn [snd].
  erewrite emitted_app by (cbn [stdout]; reflexivity).
  split; reflexivity.
Qed.

End Failures.

(** ** Display and returned value *)

Section Display.

Variable env : Env.
Variables (q d : string) (s : State).

(** C4: every run shows exactly one of the three displays: a table with
    its row count when the statement yields at least one row, a single
    error line when the run fails, the no-results notice when the statement
    yields no row. *)
Theorem exactly_one_display :
  let (r, s') := execute_query env q d s in
  displays_shown (emitted s s') = 1
  /\ match r with
     | inr (Some df) =>
         if (0 <? len df)%nat
         then shows_table_and_count (emitted s s') = true
         else shows_notice (emitted s s') = true
     | inr None => shows_single_error (emitted s s') = true
     | inl _ => False
     end.
Proof.
  by_path env q d s;
    erewrite emitted_app by (cbn [stdout]; reflexivity).
  - split; reflexivity.
  - split; reflexivity.
  - rewrite Hl. split; reflexivity.
  - apply Nat.ltb_lt in Hl. rewrite Hl. split; reflexivity.
Qed.

(** C5: when the statement yields more than 20 rows, the table printed
    holds exactly 20 rows, the first 20 of the result, and the line after
    it reports the number of rows of the whole result. *)
Theorem display_cap (df : DataFrame) (d' : Database) :
  env_connect env hard_coded_config = None ->
  env_engine env (db s) q = (inr df, d') ->
  20 < len df ->
  exists shown : DataFrame,
    emitted s (snd (execute_query env q d s))
    = header d ++ [Table shown; ReturnedRows (len df)]
    /\ len shown = 20
    /\ rows shown = firstn 20 (rows df)
    /\ columns shown = columns df.
Proof.
  intros Hc He Hl.
  assert (Hpos : 0 < len df) by lia.
  rewrite (run_query_rows env q d s df d' Hc He Hpos). cbn [snd].
  erewrite emitted_app by (cbn [stdout]; reflexivity).
  exists (head 20 df). repeat split.
  apply head_len. lia.
Qed.

(** C6: a statement that runs and yields no row gives a returned data
    frame (not [None]) with zero rows, and the run prints the no-results
    notice after the header, with no table and no error line. *)
Theorem empty_result_is_success (df : DataFrame) (d' : Database) :
  env_connect env hard_coded_config = None ->
  env_engine env (db s) q = (inr df, d') ->
  len df = 0 ->
  exists r : DataFrame,
    fst (execute_query env q d s) = inr (Some r)
    /\ succeeded (Some r) = true
    /\ len r = 0
    /\ emitted s (snd (execute_query env q d s)) = header d ++ [NoResults]
    /\ existsb is_table (emitted s (snd (execute_query env q d s))) = false
    /\ existsb is_error (emitted s (snd (execute_query env q d s))) = false.
Proof.
  intros Hc He Hl.
  rewrite (run_query_empty env q d s df d' Hc He Hl). cbn [fst snd].
  erewrite emitted_app by (cbn [stdout]; reflexivity).
  exists df. repeat split. exact Hl.
Qed.

(** C9: the value returned on success is the whole data frame the
    statement yielded, all of its rows, whatever their number; only the
    table printed is cut to 20 rows. *)
Theorem returns_all_rows (df : DataFrame) (d' : Database) :
  env_connect env hard_coded_config = None ->
  env_engine env (db s) q = (inr df, d') ->
  exists r : DataFrame,
    fst (execute_query env q d s) = inr (Some r)
    /\ rows r = rows df
    /\ len r = len df
    /\ columns r = columns df.
Proof.
  intros Hc He. exists df.
  destruct (Nat.eq_dec (len df) 0) as [Hl|Hl].
  - rewrite (run_query_empty env q d s df d' Hc He Hl). repeat split.
  - apply Nat.neq_0_lt_0 in Hl.
    rewrite (run_query_rows env q d s df d' Hc He Hl). repeat split.
Qed.

(** Every path makes the one [connect] call of the body. *)
Lemma run_targets :
  targets s (snd (execute_query env q d s)) = [hard_coded_config].
Proof.
  by_path env q d s; cbn [snd];
    erewrite targets_app by (cbn [connect_calls]; reflexivity);
    reflexivity.
Qed.

(** C7, as the code has it: the caller passes the SQL text and a label
    only; whatever they are, the run makes one [connect] call, to host
    localhost, port 5433, database ecommerce_db, user admin, password
    root. *)
Theorem connection_target_is_fixed :
  targets s (snd (execute_query env q d s))
  = [ {| host := "localhost"; port := 5433; database := "ecommerce_db";
         user := "admin"; password := "root" |} ].
Proof.
  rewrite run_targets. reflexivity.
Qed.

(** C8: a run on a database that its statement leaves as it found it,
    followed by a second run with the same inputs, returns the same value
    twice: the same number of rows with the same contents, or [None]
    twice. *)
Theorem run_twice_same_result :
  snd (env_engine env (db s) q) = db s ->
  fst (execute_query env q d (snd (execute_query env q d s)))
  = fst (execute_query env q d s).
Proof.
  intros Hro.
  destruct (env_connect env hard_coded_config) as [e|] eqn:Hc.
  - rewrite (run_connect_refused env q d s e Hc). cbn [fst snd].
    rewrite (run_connect_refused env q d _ e Hc). reflexivity.
  - destruct (env_engine env (db s) q) as [[e|df] d'] eqn:He;
      cbn [snd] in Hro; subst d'.
    + rewrite (run_query_raises env q d s e (db s) Hc He). cbn [fst snd].
      erewrite run_query_raises; [reflexivity | exact Hc | exact He].
    + destruct (Nat.eq_dec (len df) 0) as [Hl|Hl].
      * rewrite (run_query_empty env q d s df (db s) Hc He Hl).
        cbn [fst snd].
        erewrite run_query_empty; [reflexivity | exact Hc | exact He | exact Hl].
      * apply Nat.neq_0_lt_0 in Hl.
        rewrite (run_query_rows env q d s df (db s) Hc He Hl).
        cbn [fst snd].
        erewrite run_query_rows; [reflexivity | exact Hc | exact He | exact Hl].
Qed.

End Display.

(** ** The function evaluated on concrete servers *)

Lemma query_failure_leaves_connection_open_witness :
  env_connect server_up hard_coded_config = None
  /\ env_engine server_up demo_db "no_such_table" = (inl no_relation, demo_db)
  /\ opened (init_state demo_db)
       (snd (execute_query server_up "no_such_table" "Query" (init_state demo_db))) = 1
  /\ closed (init_state demo_db)
       (snd (execute_query server_up "no_such_table" "Query" (init_state demo_db))) = 0
  /\ is_live 0
       (snd (execute_query server_up "no_such_table" "Query" (init_state demo_db))) = true.
Proof.
  split; [reflexivity | split; [reflexivity |]].
  apply (query_failure_leaves_connection_open server_up "no_such_table" "Query"
           (init_state demo_db) no_relation demo_db); reflexivity.
Defined.

(** C3 as stated fails: a refused connection and a rejected statement give
    the caller the same value. *)
Lemma failure_kinds_same_return_value :
  env_connect server_down hard_coded_config = Some refused
  /\ env_connect server_up hard_coded_config = None
  /\ fst (env_engine server_up demo_db "no_such_table") = inl no_relation
  /\ exc_kind refused <> exc_kind no_relation
  /\ fst (execute_query server_down "orders" "Query" (init_state demo_db))
     = fst (execute_query server_up "no_such_table" "Query" (init_state demo_db)).
Proof.
  repeat split. discriminate.
Qed.

Lemma either_failure_returns_None_witness :
  (env_connect server_down hard_coded_config = Some refused
   \/ (env_connect server_down hard_coded_config = None
       /\ fst (env_engine server_down demo_db "orders") = inl refused))
  /\ fst (execute_query server_down "orders" "Query" (init_state demo_db)) = inr None
  /\ filter is_error
       (emitted (init_state demo_db)
          (snd (execute_query server_down "orders" "Query" (init_state demo_db))))
     = [ErrorLine (exc_text refused)].
Proof.
  split; [left; reflexivity |].
  apply (either_failure_returns_None server_down "orders" "Query"
           (init_state demo_db) refused).
  left. reflexivity.
Defined.

Lemma no_header_without_connection_witness :
  env_connect server_down hard_coded_config = Some refused
  /\ emitted (init_state demo_db)
       (snd (execute_query server_down "orders" "Query" (init_state demo_db)))
     = [ErrorLine "connection refused"]
  /\ existsb is_header
       (emitted (init_state demo_db)
          (snd (execute_query server_down "orders" "Query" (init_state demo_db))))
     = false.
Proof.
  split; [reflexivity |].
  apply (no_header_without_connection server_down "orders" "Query"
           (init_state demo_db) refused).
  reflexivity.
Defined.

Lemma display_cap_witness :
  env_connect server_up hard_coded_config = None
  /\ env_engine server_up demo_db "orders" = (inr orders_df, demo_db)
  /\ 20 < len orders_df
  /\ exists shown : DataFrame,
       emitted (init_state demo_db)
         (snd (execute_query server_up "orders" "Query" (init_state demo_db)))
       = header "Query" ++ [Table shown; ReturnedRows (len orders_df)]
       /\ len shown = 20
       /\ rows shown = firstn 20 (rows orders_df)
       /\ columns shown = columns orders_df.
Proof.
  split; [reflexivity | split; [reflexivity | split; [vm_compute; lia |]]].
  apply (display_cap server_up "orders" "Query" (init_state demo_db)
           orders_df demo_db); [reflexivity | reflexivity | vm_compute; lia].
Defined.

Lemma empty_result_is_success_witness :
  env_connect server_up hard_coded_config = None
  /\ env_engine server_up demo_db "returns" = (inr returns_df, demo_db)
  /\ len returns_df = 0
  /\ exists r : DataFrame,
       fst (execute_query server_up "returns" "Query" (init_state demo_db))
       = inr (Some r)
       /\ succeeded (Some r) = true
       /\ len r = 0
       /\ emitted (init_state demo_db)
            (snd (execute_query server_up "returns" "Query" (init_state demo_db)))
          = header "Query" ++ [NoResults]
       /\ existsb is_table
            (emitted (init_state demo_db)
               (snd (execute_query server_up "returns" "Query" (init_state demo_db))))
          = false
       /\ existsb is_error
            (emitted (init_state demo_db)
               (snd (execute_query server_up "returns" "Query" (init_state demo_db))))
          = false.
Proof.
  split; [reflexivity | split; [reflexivity | split; [reflexivity |]]].
  apply (empty_result_is_success server_up "returns" "Query" (init_state demo_db)
           returns_df demo_db); reflexivity.
Defined.

Lemma returns_all_rows_witness :
  env_connect server_up hard_coded_config = None
  /\ env_engine server_up demo_db "orders" = (inr orders_df, demo_db)
  /\ exists r : DataFrame,
       fst (execute_query server_up "orders" "Query" (init_state demo_db))
       = inr (Some r)
       /\ rows r = rows orders_df
       /\ len r = len orders_df
       /\ columns r = columns orders_df.
Proof.
  split; [reflexivity | split; [reflexivity |]].
  apply (returns_all_rows server_up "orders" "Query" (init_state demo_db)
           orders_df demo_db); reflexivity.
Defined.

(** C7 as stated fails: the target is not an input; no query, label, server
    or state makes the function connect anywhere but to the written
    configuration. *)
Lemma caller_cannot_choose_target :
  targets (init_state demo_db)
    (snd (execute_query server_up "orders" "db.example.org" (init_state demo_db)))
  = [hard_coded_config]
  /\ hard_coded_config <> other_target
  /\ ~ (exists (env : Env) (q d : string) (s : State),
          In other_target (targets s (snd (execute_query env q d s)))).
Proof.
  split; [reflexivity | split; [discriminate |]].
  intros (env & q & d & s & Hin).
  rewrite run_targets in Hin. destruct Hin as [Heq | []].
  discriminate Heq.
Qed.

Lemma run_twice_same_result_witness :
  snd (env_engine server_up (db (init_state demo_db)) "orders")
  = db (init_state demo_db)
  /\ fst (execute_query server_up "orders" "Query"
            (snd (execute_query server_up "orders" "Query" (init_state demo_db))))
     = fst (execute_query server_up "orders" "Query" (init_state demo_db)).
Proof.
  split; [reflexivity |].
  apply (run_twice_same_result server_up "orders" "Query" (init_state demo_db)).
  reflexivity.
Defined.

(** * Further properties of [execute_query] and of the entry points *)

Lemma filter_fresh (n : nat) (l : list nat) :
  forallb (fun h => (h <? n)%nat) l = true ->
  filter (fun h => negb (Nat.eqb n h)) l = l.
Proof.
  induction l as [|h l IH]; cbn; [reflexivity|].
  intros H. apply andb_prop in H. destruct H as [Hh Hl].
  apply Nat.ltb_lt in Hh.
  assert (Hne : Nat.eqb n h = false) by (apply Nat.eqb_neq; lia).
  rewrite Hne. cbn. rewrite (IH Hl). reflexivity.
Qed.

Lemma forallb_lt_S (n : nat) (l : list nat) :
  forallb (fun h => (h <? n)%nat) l = true ->
  forallb (fun h => (h <? S n)%nat) l = true.
Proof.
  induction l as [|h l IH]; cbn [forallb]; [reflexivity|].
  intros H. apply andb_prop in H. destruct H as [Hh Hl].
  apply Nat.ltb_lt in Hh. rewrite (IH Hl).
  assert (Hlt : (h <? S n)%nat = true) by (apply Nat.ltb_lt; lia).
  rewrite Hlt. reflexivity.
Qed.

Lemma head_all (n : nat) (df : DataFrame) :
  len df <= n -> head n df = df.
Proof.
  destruct df as [cs rs]. unfold head, len. cbn. intros H.
  rewrite firstn_all2 by exact H. reflexivity.
Qed.

Section Bookkeeping.

Variable env : Env.
Variables (q d : string) (s : State).


(** X2: a run whose statement succeeds closes the handle it opened and no
    other: the handles the caller held open before the call are exactly the
    handles open after it. *)
Theorem success_leaves_other_handles_open (df : DataFrame) (d' : Database) :
  fresh_handles s = true ->
  env_connect env hard_coded_config = None ->
  env_engine env (db s) q = (inr df, d') ->
  live (snd (execute_query env q d s)) = live s.
Proof.
  unfold fresh_handles. intros Hf Hc He.
  destruct (Nat.eq_dec (len df) 0) as [Hl|Hl].
  - rewrite (run_query_empty env q d s df d' Hc He Hl). cbn [snd live].
    apply filter_fresh. exact Hf.
  - apply Nat.neq_0_lt_0 in Hl.
    rewrite (run_query_rows env q d s df d' Hc He Hl). cbn [snd live].
    apply filter_fresh. exact Hf.
Qed.

(** X3: the statement reaches the engine only through an accepted
    connection, and then once: after a refused connection the database is
    the one before the call; after an accepted one it is the database that
    one execution of the statement leaves, whether the statement succeeded
    or raised. *)
Theorem statement_runs_at_most_once :
  db (snd (execute_query env q d s))
  = match env_connect env hard_coded_config with
    | Some _ => db s
    | None => snd (env_engine env (db s) q)
    end.
Proof.
  by_path env q d s; reflexivity.
Qed.

End Bookkeeping.

Section Output.

Variable env : Env.
Variables (q d : string) (s : State).

(** X4: a result of 1 to 20 rows is displayed whole: the table printed is
    the data frame itself, uncut, followed by its row count. *)
Theorem small_result_shown_whole (df : DataFrame) (d' : Database) :
  env_connect env hard_coded_config = None ->
  env_engine env (db s) q = (inr df, d') ->
  0 < len df ->
  len df <= 20 ->
  emitted s (snd (execute_query env q d s))
  = header d ++ [Table df; ReturnedRows (len df)].
Proof.
  intros Hc He Hpos Hle.
  rewrite (run_query_rows env q d s df d' Hc He Hpos). cbn [snd].
  erewrite emitted_app by (cbn [stdout]; reflexivity).
  rewrite (head_all 20 df Hle). reflexivity.
Qed.

(** X5: when the connection is accepted and the statement raises, the run
    prints the three header lines and then the error line with the text of
    the exception, and nothing else. *)
Theorem query_failure_prints_header_then_error (e : Exc) (d' : Database) :
  env_connect env hard_coded_config = None ->
  env_engine env (db s) q = (inl e, d') ->
  emitted s (snd (execute_query env q d s))
  = [HeaderRuleTop; HeaderCaption d; HeaderRuleBottom; ErrorLine (exc_text e)].
Proof.
  intros Hc He. rewrite (run_query_raises env q d s e d' Hc He). cbn [snd].
  erewrite emitted_app by (cbn [stdout]; reflexivity). reflexivity.
Qed.

(** X6: whenever the connection is accepted, the output of the run starts
    with the header carrying the label passed, whatever the statement does
    afterwards, and no header line occurs again after it. *)
Theorem header_comes_first :
  env_connect env hard_coded_config = None ->
  exists rest : list Line,
    emitted s (snd (execute_query env q d s)) = header d ++ rest
    /\ existsb is_header rest = false
    /\ rest <> [].
Proof.
  intros Hc.
  destruct (env_engine env (db s) q) as [[e|df] d'] eqn:He.
  - rewrite (run_query_raises env q d s e d' Hc He). cbn [snd].
    erewrite emitted_app by (cbn [stdout]; reflexivity).
    exists [ErrorLine (exc_text e)]. repeat split. discriminate.
  - destruct (Nat.eq_dec (len df) 0) as [Hl|Hl].
    + rewrite (run_query_empty env q d s df d' Hc He Hl). cbn [snd].
      erewrite emitted_app by (cbn [stdout]; reflexivity).
      exists [NoResults]. repeat split. discriminate.
    + apply Nat.neq_0_lt_0 in Hl.
      rewrite (run_query_rows env q d s df d' Hc He Hl). cbn [snd].
      erewrite emitted_app by (cbn [stdout]; reflexivity).
      exists [Table (head 20 df); ReturnedRows (len df)].
      repeat split. discriminate.
Qed.


(** X8: the label is cosmetic: two runs from the same state that differ in
    the label only return the same value, leave the same database and the
    same handles, and print the same lines apart from the header. *)
Theorem label_changes_header_only (d2 : string) :
  fst (execute_query env q d s) = fst (execute_query env q d2 s)
  /\ db (snd (execute_query env q d s)) = db (snd (execute_query env q d2 s))
  /\ live (snd (execute_query env q d s)) = live (snd (execute_query env q d2 s))
  /\ open_count (snd (execute_query env q d s))
     = open_count (snd (execute_query env q d2 s))
  /\ close_count (snd (execute_query env q d s))
     = close_count (snd (execute_query env q d2 s))
  /\ filter (fun l => negb (is_header l)) (emitted s (snd (execute_query env q d s)))
     = filter (fun l => negb (is_header l))
         (emitted s (snd (execute_query env q d2 s))).
Proof.
  destruct (env_connect env hard_coded_config) as [e|] eqn:Hc.
  - rewrite (run_connect_refused env q d s e Hc),
      (run_connect_refused env q d2 s e Hc). repeat split.
  - destruct (env_engine env (db s) q) as [[e|df] d'] eqn:He.
    + rewrite (run_query_raises env q d s e d' Hc He),
        (run_query_raises env q d2 s e d' Hc He).
      cbn [fst snd db live open_count close_count].
      do 2 erewrite emitted_app by (cbn [stdout]; reflexivity).
      repeat split.
    + destruct (Nat.eq_dec (len df) 0) as [Hl|Hl].
      * rewrite (run_query_empty env q d s df d' Hc He Hl),
          (run_query_empty env q d2 s df d' Hc He Hl).
        cbn [fst snd db live open_count close_count].
        do 2 erewrite emitted_app by (cbn [stdout]; reflexivity).
        repeat split.
      * apply Nat.neq_0_lt_0 in Hl.
        rewrite (run_query_rows env q d s df d' Hc He Hl),
          (run_query_rows env q d2 s df d' Hc He Hl).
        cbn [fst snd db live open_count close_count].
        do 2 erewrite emitted_app by (cbn [stdout]; reflexivity).
        repeat split.
Qed.


End Output.

Section Composition.

Variable env : Env.

(** Every run ends with a returned value. *)
Lemma run_value (q d : string) (s : State) :
  exists r : option DataFrame, fst (execute_query env q d s) = inr r.
Proof.
  by_path env q d s; cbn [fst]; eexists; reflexivity.
Qed.

(** X10: a handle left open by a run whose statement raised is not released
    by a later run that succeeds: after the second call the handle of the
    first is still open, and of the two handles opened one was closed. *)
Theorem leaked_handle_survives_next_run
    (q1 q2 d1 d2 : string) (s : State) (e : Exc) (df : DataFrame)
    (db1 db2 : Database) :
  fresh_handles s = true ->
  env_connect env hard_coded_config = None ->
  env_engine env (db s) q1 = (inl e, db1) ->
  env_engine env db1 q2 = (inr df, db2) ->
  let s1 := snd (execute_query env q1 d1 s) in
  let s2 := snd (execute_query env q2 d2 s1) in
  live s2 = open_count s :: live s
  /\ is_live (open_count s) s2 = true
  /\ opened s s2 = 2
  /\ closed s s2 = 1.
Proof.
  unfold fresh_handles. intros Hf Hc He1 He2.
  rewrite (run_query_raises env q1 d1 s e db1 Hc He1). cbn [snd].
  set (s1 := {| db := db1;
                connect_calls := connect_calls s ++ [hard_coded_config];
                open_count := S (open_count s); close_count := close_count s;
                live := open_count s :: live s;
                stdout := stdout s ++ header d1 ++ [ErrorLine (exc_text e)] |}).
  assert (Hlive2 : live (snd (execute_query env q2 d2 s1)) = live s1
                   /\ open_count (snd (execute_query env q2 d2 s1)) = S (open_count s1)
                   /\ close_count (snd (execute_query env q2 d2 s1)) = S (close_count s1)).
  { assert (Hf1 : forallb (fun h => (h <? open_count s1)%nat) (live s1) = true).
    { subst s1. cbn [live open_count forallb].
      rewrite (forallb_lt_S _ _ Hf).
      assert (Hlt : (open_count s <? S (open_count s))%nat = true)
        by (apply Nat.ltb_lt; lia).
      rewrite Hlt. reflexivity. }
    assert (He2' : env_engine env (db s1) q2 = (inr df, db2)) by exact He2.
    destruct (Nat.eq_dec (len df) 0) as [Hl|Hl].
    - rewrite (run_query_empty env q2 d2 s1 df db2 Hc He2' Hl).
      cbn [snd live open_count close_count].
      rewrite (filter_fresh _ _ Hf1). repeat split.
    - apply Nat.neq_0_lt_0 in Hl.
      rewrite (run_query_rows env q2 d2 s1 df db2 Hc He2' Hl).
      cbn [snd live open_count close_count].
      rewrite (filter_fresh _ _ Hf1). repeat split. }
  destruct Hlive2 as (Hl2 & Ho2 & Hc2).
  unfold is_live, opened, closed. cbn zeta. rewrite Hl2, Ho2, Hc2.
  subst s1. cbn [live open_count close_count existsb].
  rewrite Nat.eqb_refl. repeat split; lia.
Qed.

(** X11: the entry points of both scripts end normally whatever the server
    does, with no exception left to the interpreter; each makes the one
    call of [execute_query] with its own label and leaves the state that
    call leaves. *)
Theorem scripts_end_normally (s : State) :
  main_006 env s
  = (inr tt,
     snd (execute_query env query_006 "RANKING HIGH SPENDING CUSTOMERS" s))
  /\ main_007 env s
     = (inr tt,
        snd (execute_query env query_007 "Month-over-Month Revenue Growth" s)).
Proof.
  unfold main_006, main_007, bind, ret. split.
  - destruct (run_value query_006 "RANKING HIGH SPENDING CUSTOMERS" s) as [r Hr].
    destruct (execute_query env query_006 "RANKING HIGH SPENDING CUSTOMERS" s)
      as [v s'].
    cbn [fst] in Hr. subst v. reflexivity.
  - destruct (run_value query_007 "Month-over-Month Revenue Growth" s) as [r Hr].
    destruct (execute_query env query_007 "Month-over-Month Revenue Growth" s)
      as [v s'].
    cbn [fst] in Hr. subst v. reflexivity.
Qed.

End Composition.

(** ** The further properties on concrete servers *)


Lemma success_leaves_other_handles_open_witness :
  fresh_handles busy_state = true
  /\ env_connect server_up hard_coded_config = None
  /\ env_engine server_up (db busy_state) "orders" = (inr orders_df, demo_db)
  /\ live (snd (execute_query server_up "orders" "Query" busy_state)) = [1; 0].
Proof.
  split; [reflexivity | split; [reflexivity | split; [reflexivity |]]].
  apply (success_leaves_other_handles_open server_up "orders" "Query" busy_state
           orders_df demo_db); reflexivity.
Defined.

Lemma small_result_shown_whole_witness :
  env_connect server_up hard_coded_config = None
  /\ env_engine server_up demo_db "customers" = (inr customers_df, demo_db)
  /\ 0 < len customers_df
  /\ len customers_df <= 20
  /\ emitted (init_state demo_db)
       (snd (execute_query server_up "customers" "Query" (init_state demo_db)))
     = header "Query" ++ [Table customers_df; ReturnedRows (len customers_df)].
Proof.
  split; [reflexivity | split; [reflexivity |]].
  split; [vm_compute; lia | split; [vm_compute; lia |]].
  apply (small_result_shown_whole server_up "customers" "Query"
           (init_state demo_db) customers_df demo_db);
    [reflexivity | reflexivity | vm_compute; lia | vm_compute; lia].
Defined.

Lemma query_failure_prints_header_then_error_witness :
  env_connect server_up hard_coded_config = None
  /\ env_engine server_up demo_db "no_such_table" = (inl no_relation, demo_db)
  /\ emitted (init_state demo_db)
       (snd (execute_query server_up "no_such_table" "Query" (init_state demo_db)))
     = [HeaderRuleTop; HeaderCaption "Query"; HeaderRuleBottom;
        ErrorLine "relation does not exist"].
Proof.
  split; [reflexivity | split; [reflexivity |]].
  apply (query_failure_prints_header_then_error server_up "no_such_table" "Query"
           (init_state demo_db) no_relation demo_db); reflexivity.
Defined.

Lemma header_comes_first_witness :
  env_connect server_up hard_coded_config = None
  /\ exists rest : list Line,
       emitted busy_state (snd (execute_query server_up "orders" "Top" busy_state))
       = header "Top" ++ rest
       /\ existsb is_header rest = false
       /\ rest <> [].
Proof.
  split; [reflexivity |].
  apply (header_comes_first server_up "orders" "Top" busy_state).
  reflexivity.
Defined.


Lemma leaked_handle_survives_next_run_witness :
  fresh_handles busy_state = true
  /\ env_connect server_up hard_coded_config = None
  /\ env_engine server_up (db busy_state) "no_such_table" = (inl no_relation, demo_db)
  /\ env_engine server_up demo_db "orders" = (inr orders_df, demo_db)
  /\ let s1 := snd (execute_query server_up "no_such_table" "First" busy_state) in
     let s2 := snd (execute_query server_up "orders" "Second" s1) in
     live s2 = open_count busy_state :: live busy_state
     /\ is_live (open_count busy_state) s2 = true
     /\ opened busy_state s2 = 2
     /\ closed busy_state s2 = 1.
Proof.
  split; [reflexivity | split; [reflexivity | split; [reflexivity |]]].
  split; [reflexivity |].
  apply (leaked_handle_survives_next_run server_up "no_such_table" "orders"
           "First" "Second" busy_state no_relation orders_df demo_db demo_db);
    reflexivity.
Defined.
